(** * AscentCast: the transcript pipeline of [main.py]

    A shallow embedding of [Config], [PodcastAnalyzer] and [main], and the
    properties of the two-stage pipeline (OCR extraction, then insight
    generation).

    The two network clients, [open] and the credentials are collaborators
    of the program: they are taken as a [Runtime] over an arbitrary world
    type, so that every statement holds for every behaviour of the
    services.  Methods are computations in a state-and-exception monad over
    a heap that holds the analyzer's [config], the world and a log of the
    service calls made so far. *)

From Stdlib Require Import String Ascii List Bool Arith ZArith QArith Lia.
Import ListNotations.
Local Close Scope Q_scope.
Local Close Scope Z_scope.
Local Open Scope list_scope.
Local Open Scope string_scope.

(** ** Python strings *)

Module PyStr.

(** [sep.join(parts)]. *)
Fixpoint join (sep : string) (parts : list string) : string :=
  match parts with
  | [] => ""
  | [p] => p
  | p :: rest => p ++ sep ++ join sep rest
  end.

(** [s.startswith(p)]. *)
Fixpoint startswith (p s : string) : bool :=
  match p, s with
  | EmptyString, _ => true
  | String _ _, EmptyString => false
  | String a p', String b s' => Ascii.eqb a b && startswith p' s'
  end.

(** [sub in s]: some suffix of [s] starts with [sub]. *)
Fixpoint contains (sub s : string) : bool :=
  startswith sub s ||
  match s with
  | EmptyString => false
  | String _ s' => contains sub s'
  end.

(** [c in s] for a single character. *)
Fixpoint has_char (c : ascii) (s : string) : bool :=
  match s with
  | EmptyString => false
  | String b s' => Ascii.eqb c b || has_char c s'
  end.

Definition newline : ascii := "010"%char.

(** [s.split(c)] for a single character [c]. *)
Fixpoint split (c : ascii) (s : string) : list string :=
  match s with
  | EmptyString => [""]
  | String a s' =>
      if Ascii.eqb a c then "" :: split c s'
      else match split c s' with
           | [] => [String a ""]
           | p :: ps => String a p :: ps
           end
  end.

End PyStr.

(** ** Exceptions

    A value of [exn] is an instance of Python's [Exception]: what the
    clients and [open] raise on failure and what [except Exception]
    catches.  [exn_class] is the name of its class, [exn_str] is [str(e)]. *)

Record exn : Type := mk_exn { exn_class : string; exn_str : string }.

(** [Exception(msg)]: the generic class; [str(Exception(msg)) = msg]. *)
Definition Exception (msg : string) : exn :=
  {| exn_class := "Exception"; exn_str := msg |}.

Definition str (e : exn) : string := exn_str e.

(** ** State and exceptions *)

Module Py.

(** A computation over a heap [H]: it raises or returns, and leaves a heap. *)
Definition M (H A : Type) : Type := H -> (exn + A) * H.

Definition ret {H A} (a : A) : M H A := fun h => (inr a, h).

Definition raise {H A} (e : exn) : M H A := fun h => (inl e, h).

Definition bind {H A B} (c : M H A) (k : A -> M H B) : M H B :=
  fun h =>
    match c h with
    | (inl e, h') => (inl e, h')
    | (inr a, h') => k a h'
    end.

(** [try: c  except Exception as e: handler e]. *)
Definition try_except {H A} (c : M H A) (handler : exn -> M H A) : M H A :=
  fun h =>
    match c h with
    | (inl e, h') => handler e h'
    | (inr a, h') => (inr a, h')
    end.

End Py.

Notation "x <- c ;; k" := (Py.bind c (fun x => k))
  (at level 61, c at next level, right associativity).

(** An observation of the heap that a computation leaves as it found it. *)
Definition keeps {H A X : Type} (obs : H -> X) (c : Py.M H A) : Prop :=
  forall h, obs (snd (c h)) = obs h.

(** ** Data model *)

(** [pathlib.Path] over POSIX path strings. *)
Module pathlib.

Definition Path : Type := string.

(** The components of a path string, split at every slash. *)
Definition parts (s : string) : list string := PyStr.split "/"%char s.

(** [p.name]: the final component, empty and [.] components dropped. *)
Definition name (p : Path) : string :=
  last (filter (fun c => negb (String.eqb c "" || String.eqb c ".")) (parts p)) "".

End pathlib.

(** [@dataclass class Config]. *)
Record Config : Type := mk_Config {
  file_path : pathlib.Path;
  user_context : string;
  model : string;
  max_tokens : Z;
  temperature : Q
}.

(** [Config(file_path=..., user_context=...)]: the other fields take their
    declared defaults. *)
Definition Config_init (file_path : pathlib.Path) (user_context : string) : Config :=
  {| file_path := file_path;
     user_context := user_context;
     model := "claude-3-7-sonnet-20250219";
     max_tokens := 4000%Z;
     temperature := 1%Q |}.

(** *** Values exchanged with the services *)

(** The object [open(path, mode)] returns. *)
Record FileObject : Type := { fo_path : pathlib.Path; fo_mode : string }.

(** [file={"file_name": ..., "content": ...}]. *)
Record UploadFile : Type := { file_name : string; file_content : FileObject }.

Record UploadedFile : Type := { file_id : string }.

Record SignedUrl : Type := { url : string }.

(** [document={"type": ..., "document_url": ...}]. *)
Record Document : Type := { document_type : string; document_url : string }.

Record OCRPage : Type := { index : nat; markdown : string }.

Record OCRResponse : Type := { pages : list OCRPage }.

(** [{"type": "text", "text": ...}]. *)
Record ContentPart : Type := { part_type : string; part_text : string }.

(** [{"role": ..., "content": [...]}]. *)
Record ChatMessage : Type := { role : string; message_content : list ContentPart }.

(** The keyword arguments of [messages.create]. *)
Record CreateParams : Type := {
  create_model : string;
  create_max_tokens : Z;
  create_temperature : Q;
  create_system : string;
  create_messages : list ChatMessage
}.

Record TextBlock : Type := { text : string }.

Record Message : Type := { content : list TextBlock }.

(** *** The collaborators *)

(** An operation of a service: it raises or returns and changes the world. *)
Definition Op (W A : Type) : Type := W -> (exn + A) * W.

Record MistralClient (W : Type) : Type := {
  files_upload : UploadFile -> string -> Op W UploadedFile;
  files_get_signed_url : string -> Op W SignedUrl;
  ocr_process : string -> Document -> Op W OCRResponse
}.

Record AnthropicClient (W : Type) : Type := {
  messages_create : CreateParams -> Op W Message
}.

Record Runtime (W : Type) : Type := {
  os_environ_get : string -> option string;
  Mistral : option string -> MistralClient W;
  Anthropic : option string -> AnthropicClient W;
  open : pathlib.Path -> string -> Op W FileObject
}.

Arguments files_upload {W}.
Arguments files_get_signed_url {W}.
Arguments ocr_process {W}.
Arguments messages_create {W}.
Arguments os_environ_get {W}.
Arguments Mistral {W}.
Arguments Anthropic {W}.
Arguments open {W}.

(** [class PodcastAnalyzer]: the attributes of an instance. *)
Record PodcastAnalyzer (W : Type) : Type := {
  config : Config;
  mistral_client : MistralClient W;
  anthropic_client : AnthropicClient W
}.

Arguments config {W}.
Arguments mistral_client {W}.
Arguments anthropic_client {W}.

(** The calls that leave the program, as a stub would count them. *)
Inductive Call : Type :=
| CallOpen (p : pathlib.Path) (mode : string)
| CallFilesUpload (file : UploadFile) (purpose : string)
| CallFilesGetSignedUrl (id : string)
| CallOcrProcess (ocr_model : string) (document : Document)
| CallMessagesCreate (params : CreateParams)
| CallPrint (line : string).

(** The requests the generation service received. *)
Definition generation_request_of (c : Call) : list CreateParams :=
  match c with CallMessagesCreate params => [params] | _ => [] end.

Definition generation_requests (log : list Call) : list CreateParams :=
  flat_map generation_request_of log.

(** How many times the generation service was called. *)
Definition generation_calls (log : list Call) : nat :=
  List.length (generation_requests log).

(** The user texts of a request: the prompts it carries. *)
Definition user_texts (params : CreateParams) : list string :=
  flat_map (fun m => map part_text (message_content m)) (create_messages params).

(** The heap of one run: the analyzer object, the world and the call log. *)
Record Heap (W : Type) : Type := {
  self : PodcastAnalyzer W;
  world : W;
  calls : list Call
}.

Arguments self {W}.
Arguments world {W}.
Arguments calls {W}.

(** ** Prompt text *)

Definition nl : string := String PyStr.newline "".

Definition system_prompt : string := "
        You are an expert in analyzing technology podcasts, extracting key career insights, and providing actionable recommendations tailored to professionals in fast-growing startups.

        Your primary goal is to help users translate insights from industry leaders into concrete actions that accelerate their professional growth. You will analyze podcast transcripts to identify:

        1. Key career takeaways for software engineers, product builders, and startup operators
        2. Skills and strategies that can improve the user's impact in their role
        3. Lessons from top founders and investors that apply to the user's long-term career trajectory
        4. Opportunities for networking, leadership development, and industry positioning

        Ensure your responses are clear, structured, and tailored to the user's career path.
        ".

(** The f-string of [_analyze_transcript]. *)
Definition user_prompt (user_context transcript : string) : string :=
  "
        " ++ user_context ++ "

        Please analyze the following podcast transcript and provide key takeaways that are directly relevant to my career growth, technical development, and long-term trajectory. Structure your response as follows:

        1. Key Career Lessons: What skills, mindsets, and strategies from the podcast are most relevant to my role and future growth?
        2. Actionable Career Moves: What specific actions should I take in the next 6-12 months to develop my skills, expand my network, or increase my impact?
        3. Lessons from Top Operators & Investors: What habits or frameworks from experienced founders, investors, or executives can I apply to my career?
        4. Opportunities to Apply These Insights: How can I integrate these lessons into my current role?

        Here's the transcript:

        " ++ transcript ++ "
        ".

Definition default_user_context : string :=
  "I am a professional looking to grow my career in technology and startups.".

(** ** The command line *)

(** What [sys.argv] holds once argparse has split it: the positional
    [file_path] and, when the flag is present, the value of [--user-context]. *)
Record CommandLine : Type := {
  argv_file_path : string;
  argv_user_context : option string
}.

(** The namespace [parser.parse_args()] returns. *)
Record Namespace : Type := {
  args_file_path : string;
  args_user_context : string
}.

Definition parse_args (argv : CommandLine) : Namespace :=
  {| args_file_path := argv_file_path argv;
     args_user_context :=
       match argv_user_context argv with
       | Some v => v
       | None => default_user_context
       end |}.

(** ** class PodcastAnalyzer *)

Section Pipeline.

Context {W : Type} (rt : Runtime W).

Abbreviation M := (Py.M (Heap W)).

(** A call to a collaborator: logged, and run on the world of the heap. *)
Definition invoke {A : Type} (c : Call) (op : Op W A) : M A :=
  fun h =>
    let (r, w') := op (world h) in
    (r, {| self := self h; world := w'; calls := (calls h ++ [c])%list |}).

(** Attribute reads on [self]. *)
Definition self_config : M Config :=
  fun h => (inr (config (self h)), h).

Definition self_mistral_client : M (MistralClient W) :=
  fun h => (inr (mistral_client (self h)), h).

Definition self_anthropic_client : M (AnthropicClient W) :=
  fun h => (inr (anthropic_client (self h)), h).

(** [PodcastAnalyzer(config)]. *)
Definition PodcastAnalyzer_init (config : Config) : PodcastAnalyzer W :=
  {| config := config;
     mistral_client := Mistral rt (os_environ_get rt "MISTRAL_API_KEY");
     anthropic_client := Anthropic rt (os_environ_get rt "ANTHROPIC_API_KEY") |}.

(** The [try] block of [_extract_text_from_file]. *)
Definition _extract_text_from_file_try : M string :=
  client <- self_mistral_client ;;
  cfg <- self_config ;;
  let name := pathlib.name (file_path cfg) in
  cfg' <- self_config ;;
  f <- invoke (CallOpen (file_path cfg') "rb") (open rt (file_path cfg') "rb") ;;
  let file := {| file_name := name; file_content := f |} in
  uploaded_file <- invoke (CallFilesUpload file "ocr") (files_upload client file "ocr") ;;
  client <- self_mistral_client ;;
  signed_url <- invoke (CallFilesGetSignedUrl (file_id uploaded_file))
                       (files_get_signed_url client (file_id uploaded_file)) ;;
  client <- self_mistral_client ;;
  let document := {| document_type := "document_url";
                     document_url := url signed_url |} in
  ocr_response <- invoke (CallOcrProcess "mistral-ocr-latest" document)
                         (ocr_process client "mistral-ocr-latest" document) ;;
  Py.ret (PyStr.join nl (map markdown (pages ocr_response))).

Definition _extract_text_from_file : M string :=
  Py.try_except _extract_text_from_file_try
    (fun e => Py.raise (Exception ("OCR processing failed: " ++ str e))).

(** The request [_analyze_transcript] sends. *)
Definition analysis_request (cfg_model : string) (cfg_max_tokens : Z)
    (cfg_temperature : Q) (prompt : string) : CreateParams :=
  {| create_model := cfg_model;
     create_max_tokens := cfg_max_tokens;
     create_temperature := cfg_temperature;
     create_system := system_prompt;
     create_messages :=
       [ {| role := "user";
            message_content := [ {| part_type := "text"; part_text := prompt |} ] |} ] |}.

(** The [try] block of [_analyze_transcript], after the two prompts. *)
Definition _analyze_transcript_try (prompt : string) : M string :=
  client <- self_anthropic_client ;;
  cfg_m <- self_config ;;
  cfg_k <- self_config ;;
  cfg_t <- self_config ;;
  let params := analysis_request (model cfg_m) (max_tokens cfg_k)
                                 (temperature cfg_t) prompt in
  message <- invoke (CallMessagesCreate params) (messages_create client params) ;;
  Py.ret (PyStr.join "" (map text (content message))).

Definition _analyze_transcript (transcript : string) : M string :=
  cfg <- self_config ;;
  let prompt := user_prompt (user_context cfg) transcript in
  Py.try_except (_analyze_transcript_try prompt)
    (fun e => Py.raise (Exception ("Analysis failed: " ++ str e))).

(** The [try] block of [process_transcript]. *)
Definition process_transcript_try : M string :=
  transcript <- _extract_text_from_file ;;
  insights <- _analyze_transcript transcript ;;
  Py.ret insights.

Definition process_transcript : M string :=
  Py.try_except process_transcript_try
    (fun e => Py.ret ("Error processing transcript: " ++ str e)).

(** [print(insights)]. *)
Definition print (line : string) : M unit :=
  fun h =>
    (inr tt, {| self := self h; world := world h; calls := (calls h ++ [CallPrint line])%list |}).

(** The heap once [main()] has built [config] and [analyzer]. *)
Definition main_setup (argv : CommandLine) (w : W) : Heap W :=
  let args := parse_args argv in
  let config := Config_init (args_file_path args) (args_user_context args) in
  let analyzer := PodcastAnalyzer_init config in
  {| self := analyzer; world := w; calls := [] |}.

(** [main()], run on a command line in a world. *)
Definition main (argv : CommandLine) (w : W) : (exn + unit) * Heap W :=
  (insights <- process_transcript ;; print insights) (main_setup argv w).

(** *** The services seen from the extraction stage *)

Definition upload_request (h : Heap W) (f : FileObject) : UploadFile :=
  {| file_name := pathlib.name (file_path (config (self h))); file_content := f |}.

Definition ocr_document (signed_url : SignedUrl) : Document :=
  {| document_type := "document_url"; document_url := url signed_url |}.

(** [ocr_dialogue h r w]: started on [h], the requests of the extraction
    stage end with outcome [r] in world [w]: the first operation that
    raises ends the dialogue, otherwise the OCR call does. *)
Inductive ocr_dialogue (h : Heap W) : exn + OCRResponse -> W -> Prop :=
| open_raises e w1 :
    open rt (file_path (config (self h))) "rb" (world h) = (inl e, w1) ->
    ocr_dialogue h (inl e) w1
| upload_raises f w1 e w2 :
    open rt (file_path (config (self h))) "rb" (world h) = (inr f, w1) ->
    files_upload (mistral_client (self h)) (upload_request h f) "ocr" w1 = (inl e, w2) ->
    ocr_dialogue h (inl e) w2
| signed_url_raises f w1 uploaded_file w2 e w3 :
    open rt (file_path (config (self h))) "rb" (world h) = (inr f, w1) ->
    files_upload (mistral_client (self h)) (upload_request h f) "ocr" w1
      = (inr uploaded_file, w2) ->
    files_get_signed_url (mistral_client (self h)) (file_id uploaded_file) w2
      = (inl e, w3) ->
    ocr_dialogue h (inl e) w3
| ocr_answers f w1 uploaded_file w2 signed_url w3 r w4 :
    open rt (file_path (config (self h))) "rb" (world h) = (inr f, w1) ->
    files_upload (mistral_client (self h)) (upload_request h f) "ocr" w1
      = (inr uploaded_file, w2) ->
    files_get_signed_url (mistral_client (self h)) (file_id uploaded_file) w2
      = (inr signed_url, w3) ->
    ocr_process (mistral_client (self h)) "mistral-ocr-latest"
      (ocr_document signed_url) w3 = (r, w4) ->
    ocr_dialogue h r w4.

(** The request the generation stage sends for [transcript] from heap [h]. *)
Definition generation_request (h : Heap W) (transcript : string) : CreateParams :=
  let cfg := config (self h) in
  analysis_request (model cfg) (max_tokens cfg) (temperature cfg)
                   (user_prompt (user_context cfg) transcript).

(** [generation_answers h transcript r w]: the generation service answers
    that request with outcome [r] and leaves world [w]. *)
Definition generation_answers (h : Heap W) (transcript : string)
    (r : exn + Message) (w : W) : Prop :=
  messages_create (anthropic_client (self h)) (generation_request h transcript)
    (world h) = (r, w).

End Pipeline.

Arguments invoke {W A}.
Arguments self_config {W}.
Arguments print {W}.

(** ** Reading the call log *)

(** Which operation a call is. *)
Inductive CallKind : Type :=
| KOpen | KFilesUpload | KFilesGetSignedUrl | KOcrProcess | KMessagesCreate | KPrint.

Definition call_kind (c : Call) : CallKind :=
  match c with
  | CallOpen _ _ => KOpen
  | CallFilesUpload _ _ => KFilesUpload
  | CallFilesGetSignedUrl _ => KFilesGetSignedUrl
  | CallOcrProcess _ _ => KOcrProcess
  | CallMessagesCreate _ => KMessagesCreate
  | CallPrint _ => KPrint
  end.

(** The order in which [process_transcript] reaches the collaborators. *)
Definition pipeline_order : list CallKind :=
  [KOpen; KFilesUpload; KFilesGetSignedUrl; KOcrProcess; KMessagesCreate].

(** The lines printed. *)
Definition printed_of (c : Call) : list string :=
  match c with CallPrint line => [line] | _ => [] end.

Definition printed (log : list Call) : list string := flat_map printed_of log.

(** The calls of a run, as the source writes them. *)
Definition open_call {W} (h : Heap W) : Call :=
  CallOpen (file_path (config (self h))) "rb".

Definition upload_call {W} (h : Heap W) (f : FileObject) : Call :=
  CallFilesUpload (upload_request h f) "ocr".

Definition signed_url_call (uploaded_file : UploadedFile) : Call :=
  CallFilesGetSignedUrl (file_id uploaded_file).

Definition ocr_call (signed_url : SignedUrl) : Call :=
  CallOcrProcess "mistral-ocr-latest" (ocr_document signed_url).

Definition generation_call {W} (h : Heap W) (transcript : string) : Call :=
  CallMessagesCreate (generation_request h transcript).

(** The heap [h] once the calls [made] have left the world [w]. *)
Definition after {W} (h : Heap W) (w : W) (made : list Call) : Heap W :=
  {| self := self h; world := w; calls := (calls h ++ made)%list |}.

(** ** A scripted stub of the collaborators

    Each operation answers with a fixed outcome; the world counts the
    operations performed. *)

Module Stub.

Record Script : Type := {
  on_open : exn + FileObject;
  on_upload : exn + UploadedFile;
  on_signed_url : exn + SignedUrl;
  on_ocr : exn + OCRResponse;
  on_create : exn + Message
}.

Definition runtime (s : Script) : Runtime nat :=
  {| os_environ_get := fun _ => None;
     Mistral := fun _ =>
       {| files_upload := fun _ _ w => (on_upload s, S w);
          files_get_signed_url := fun _ w => (on_signed_url s, S w);
          ocr_process := fun _ _ w => (on_ocr s, S w) |};
     Anthropic := fun _ =>
       {| messages_create := fun _ w => (on_create s, S w) |};
     open := fun _ _ w => (on_open s, S w) |}.

Definition page (i : nat) (md : string) : OCRPage := {| index := i; markdown := md |}.

(** Every service answers: three OCR pages, two text fragments. *)
Definition all_ok : Script :=
  {| on_open := inr {| fo_path := "talk.pdf"; fo_mode := "rb" |};
     on_upload := inr {| file_id := "file-1" |};
     on_signed_url := inr {| url := "https://files.example/file-1" |};
     on_ocr := inr {| pages := [page 0 "A"; page 1 "B"; page 2 "C"] |};
     on_create := inr {| content := [ {| text := "Hello " |}; {| text := "world" |} ] |} |}.

Definition timeout_error : exn :=
  {| exn_class := "TimeoutError"; exn_str := "timed out" |}.

(** The upload fails. *)
Definition upload_fails : Script :=
  {| on_open := on_open all_ok;
     on_upload := inl timeout_error;
     on_signed_url := on_signed_url all_ok;
     on_ocr := on_ocr all_ok;
     on_create := on_create all_ok |}.

(** Extraction answers, generation fails. *)
Definition create_fails : Script :=
  {| on_open := on_open all_ok;
     on_upload := on_upload all_ok;
     on_signed_url := on_signed_url all_ok;
     on_ocr := on_ocr all_ok;
     on_create := inl timeout_error |}.

Definition argv : CommandLine :=
  {| argv_file_path := "talks/talk.pdf"; argv_user_context := None |}.

Definition argv_with_context : CommandLine :=
  {| argv_file_path := "talks/talk.pdf";
     argv_user_context := Some "I am a staff engineer." |}.

(** The heap [main] starts the pipeline on. *)
Definition heap (s : Script) : Heap nat := main_setup (runtime s) argv 0.

Definition transcript_abc : string := "A" ++ nl ++ "B" ++ nl ++ "C".

Definition after_extraction (s : Script) : Heap nat :=
  snd (_extract_text_from_file (runtime s) (heap s)).

Definition after_analysis (s : Script) : Heap nat :=
  snd (_analyze_transcript transcript_abc (after_extraction s)).

Definition hello_world : Message :=
  {| content := [ {| text := "Hello " |}; {| text := "world" |} ] |}.

Definition abc_pages : OCRResponse :=
  {| pages := [page 0 "A"; page 1 "B"; page 2 "C"] |}.

Definition not_found_error : exn :=
  {| exn_class := "FileNotFoundError"; exn_str := "No such file or directory" |}.

(** The file cannot be opened. *)
Definition open_fails : Script :=
  {| on_open := inl not_found_error;
     on_upload := on_upload all_ok;
     on_signed_url := on_signed_url all_ok;
     on_ocr := on_ocr all_ok;
     on_create := on_create all_ok |}.

(** The signed URL cannot be had. *)
Definition signed_url_fails : Script :=
  {| on_open := on_open all_ok;
     on_upload := on_upload all_ok;
     on_signed_url := inl timeout_error;
     on_ocr := on_ocr all_ok;
     on_create := on_create all_ok |}.

(** The OCR call fails. *)
Definition ocr_fails : Script :=
  {| on_open := on_open all_ok;
     on_upload := on_upload all_ok;
     on_signed_url := on_signed_url all_ok;
     on_ocr := inl timeout_error;
     on_create := on_create all_ok |}.

(** The OCR service finds no page. *)
Definition no_pages : Script :=
  {| on_open := on_open all_ok;
     on_upload := on_upload all_ok;
     on_signed_url := on_signed_url all_ok;
     on_ocr := inr {| pages := [] |};
     on_create := on_create all_ok |}.

(** The generation service answers with the one fragment [s]. *)
Definition saying (s : string) : Script :=
  {| on_open := on_open all_ok;
     on_upload := on_upload all_ok;
     on_signed_url := on_signed_url all_ok;
     on_ocr := on_ocr all_ok;
     on_create := inr {| content := [ {| text := s |} ] |} |}.

Definition talk_file : FileObject := {| fo_path := "talk.pdf"; fo_mode := "rb" |}.

Definition file_1 : UploadedFile := {| file_id := "file-1" |}.

Definition url_1 : SignedUrl := {| url := "https://files.example/file-1" |}.

End Stub.

(** ** Runs of the stub *)

Example stub_run_ok :
  fst (process_transcript (Stub.runtime Stub.all_ok) (Stub.heap Stub.all_ok))
  = inr "Hello world".
Proof. reflexivity. Qed.

Example stub_run_upload_fails :
  fst (process_transcript (Stub.runtime Stub.upload_fails) (Stub.heap Stub.upload_fails))
  = inr "Error processing transcript: OCR processing failed: timed out".
Proof. reflexivity. Qed.

Example stub_run_create_fails :
  fst (process_transcript (Stub.runtime Stub.create_fails) (Stub.heap Stub.create_fails))
  = inr "Error processing transcript: Analysis failed: timed out".
Proof. reflexivity. Qed.

Example path_name_examples :
  pathlib.name "talks/talk.pdf" = "talk.pdf" /\ pathlib.name "a/b/" = "b"
  /\ pathlib.name "/" = "" /\ pathlib.name "a/./b/." = "b" /\ pathlib.name ".." = "..".
Proof. repeat split. Qed.

(** ** Substrings *)

Lemma startswith_app (p s : string) : PyStr.startswith p (p ++ s) = true.
Proof.
  induction p as [|a p IH]; simpl; [reflexivity|].
  now rewrite Ascii.eqb_refl, IH.
Qed.

Lemma contains_here (p s : string) : PyStr.contains p (p ++ s) = true.
Proof.
  destruct p as [|a p]; [destruct s; reflexivity|].
  cbn [append PyStr.contains].
  change (String a (p ++ s)) with (String a p ++ s).
  now rewrite startswith_app.
Qed.

(** An occurrence survives a prefix and a suffix put around it. *)
Lemma contains_inside (p a b : string) : PyStr.contains p (a ++ p ++ b) = true.
Proof.
  induction a as [|c a IH].
  - change ("" ++ p ++ b) with (p ++ b). apply contains_here.
  - cbn [append PyStr.contains]. rewrite IH. apply orb_true_r.
Qed.

Lemma has_char_false_head (c a : ascii) (s : string) :
  PyStr.has_char c (String a s) = false ->
  Ascii.eqb a c = false /\ PyStr.has_char c s = false.
Proof.
  simpl. intros E. apply orb_false_elim in E. destruct E as [E1 E2].
  split; [|exact E2]. now rewrite Ascii.eqb_sym.
Qed.

(** A string without newline cannot start across a newline. *)
Lemma startswith_before_newline (d x y : string) :
  PyStr.has_char PyStr.newline d = false ->
  PyStr.startswith d (x ++ String PyStr.newline y) = PyStr.startswith d x.
Proof.
  revert x. induction d as [|a d IH]; intros x Hd; [reflexivity|].
  apply has_char_false_head in Hd. destruct Hd as [Ha Hd].
  destruct x as [|b x]; simpl.
  - now rewrite Ha.
  - now rewrite IH.
Qed.

(** So each of its occurrences lies on one side of the newline. *)
Lemma contains_split_newline (d x y : string) :
  PyStr.has_char PyStr.newline d = false ->
  PyStr.contains d (x ++ String PyStr.newline y)
  = PyStr.contains d x || PyStr.contains d y.
Proof.
  intros Hd. induction x as [|c x IH].
  - change ("" ++ String PyStr.newline y) with (String PyStr.newline y).
    cbn [PyStr.contains].
    rewrite <- (startswith_before_newline d "" y Hd).
    change ("" ++ String PyStr.newline y) with (String PyStr.newline y).
    now rewrite orb_false_r.
  - change (String c x ++ String PyStr.newline y)
      with (String c (x ++ String PyStr.newline y)).
    cbn [PyStr.contains]. rewrite IH.
    change (String c (x ++ String PyStr.newline y))
      with (String c x ++ String PyStr.newline y).
    rewrite (startswith_before_newline d (String c x) y Hd).
    now rewrite orb_assoc.
Qed.

(** No occurrence starts inside a prefix that lacks its first character. *)
Lemma contains_skip_prefix (a : ascii) (d x y : string) :
  PyStr.has_char a x = false ->
  PyStr.contains (String a d) (x ++ y) = PyStr.contains (String a d) y.
Proof.
  induction x as [|c x IH]; intros Hx; [reflexivity|].
  apply has_char_false_head in Hx. destruct Hx as [Hc Hx].
  change (String c x ++ y) with (String c (x ++ y)).
  cbn [PyStr.contains PyStr.startswith].
  rewrite Ascii.eqb_sym in Hc. rewrite Hc, IH by exact Hx. reflexivity.
Qed.

(** The default sentence occurs in a prompt only where the user context or
    the transcript brings it in: the template itself has none. *)
Lemma default_context_in_prompt (v t : string) :
  PyStr.contains default_user_context (user_prompt v t)
  = PyStr.contains default_user_context v || PyStr.contains default_user_context t.
Proof.
  set (sp8 := "        ").
  let b := eval vm_compute in (substring 10 804 (user_prompt "" "")) in
  pose (body := b).
  assert (E : user_prompt v t
              = "" ++ String PyStr.newline
                  ((sp8 ++ v) ++ String PyStr.newline
                     (body ++ String PyStr.newline
                        ((sp8 ++ t) ++ String PyStr.newline sp8)))).
  { unfold user_prompt, body, sp8. reflexivity. }
  rewrite E.
  assert (Hd : PyStr.has_char PyStr.newline default_user_context = false)
    by reflexivity.
  rewrite !(contains_split_newline _ _ _ Hd).
  unfold default_user_context at 2 4.
  rewrite !(contains_skip_prefix "I" _ sp8) by reflexivity.
  fold default_user_context.
  replace (PyStr.contains default_user_context "") with false by reflexivity.
  replace (PyStr.contains default_user_context body) with false
    by (vm_compute; reflexivity).
  replace (PyStr.contains default_user_context sp8) with false by reflexivity.
  simpl. now rewrite orb_false_r.
Qed.

(** ** Joining and splitting *)

Lemma split_no_separator (c : ascii) (p : string) :
  PyStr.has_char c p = false -> PyStr.split c p = [p].
Proof.
  induction p as [|a p IH]; intros Hp; [reflexivity|].
  apply has_char_false_head in Hp. destruct Hp as [Ha Hp].
  simpl. now rewrite Ha, IH.
Qed.

Lemma split_at_separator (c : ascii) (p y : string) :
  PyStr.has_char c p = false ->
  PyStr.split c (p ++ String c y) = p :: PyStr.split c y.
Proof.
  induction p as [|a p IH]; intros Hp.
  - simpl. now rewrite Ascii.eqb_refl.
  - apply has_char_false_head in Hp. destruct Hp as [Ha Hp].
    simpl. now rewrite Ha, IH.
Qed.

(** Splitting a join at its separator gives the parts back, in order, when
    no part holds the separator. *)
Lemma split_join (c : ascii) (parts : list string) :
  parts <> [] ->
  Forall (fun p => PyStr.has_char c p = false) parts ->
  PyStr.split c (PyStr.join (String c "") parts) = parts.
Proof.
  induction parts as [|p [|q rest] IH]; intros Hne Hall; [congruence| |].
  - inversion Hall; subst. now apply split_no_separator.
  - inversion Hall as [|? ? Hp Hrest]; subst.
    change (PyStr.join (String c "") (p :: q :: rest))
      with (p ++ String c (PyStr.join (String c "") (q :: rest))).
    rewrite split_at_separator by exact Hp.
    rewrite IH; [reflexivity|discriminate|exact Hrest].
Qed.

(** ** Laws of the monad *)

Section Laws.

Context {H A : Type}.

Lemma try_returns (c : Py.M H A) (handler : exn -> Py.M H A) h a h1 :
  c h = (inr a, h1) -> Py.try_except c handler h = (inr a, h1).
Proof. intros E. unfold Py.try_except. now rewrite E. Qed.

Lemma try_raises (c : Py.M H A) (handler : exn -> Py.M H A) h e h1 :
  c h = (inl e, h1) -> Py.try_except c handler h = handler e h1.
Proof. intros E. unfold Py.try_except. now rewrite E. Qed.

(** Whatever a [try] whose handler raises lets out was raised by the handler. *)
Lemma try_raises_inv (c : Py.M H A) (wrap : exn -> exn) h e h1 :
  Py.try_except c (fun e0 => Py.raise (wrap e0)) h = (inl e, h1) ->
  exists e0, c h = (inl e0, h1) /\ e = wrap e0.
Proof.
  unfold Py.try_except, Py.raise.
  destruct (c h) as [[e0|a] h']; intros E; inversion E; subst.
  now exists e0.
Qed.

End Laws.

Section Keeps.

Context {H X : Type} (obs : H -> X).

Lemma keeps_ret {A} (a : A) : keeps obs (Py.ret a).
Proof. intros h; reflexivity. Qed.

Lemma keeps_raise {A} (e : exn) : keeps obs (@Py.raise H A e).
Proof. intros h; reflexivity. Qed.

Lemma keeps_bind {A B} (c : Py.M H A) (k : A -> Py.M H B) :
  keeps obs c -> (forall a, keeps obs (k a)) -> keeps obs (Py.bind c k).
Proof.
  intros Hc Hk h. unfold Py.bind. specialize (Hc h).
  destruct (c h) as [[e|a] h1]; simpl in *; [assumption|].
  now rewrite Hk.
Qed.

Lemma keeps_try_except {A} (c : Py.M H A) (handler : exn -> Py.M H A) :
  keeps obs c -> (forall e, keeps obs (handler e)) ->
  keeps obs (Py.try_except c handler).
Proof.
  intros Hc Hh h. unfold Py.try_except. specialize (Hc h).
  destruct (c h) as [[e|a] h1]; simpl in *; [|assumption].
  now rewrite Hh.
Qed.

End Keeps.

Create HintDb keeps discriminated.
#[export] Hint Resolve keeps_ret keeps_raise : keeps.
#[export] Hint Extern 2 (keeps _ (Py.bind _ _)) => apply keeps_bind; [|intro] : keeps.
#[export] Hint Extern 2 (keeps _ (Py.try_except _ _)) =>
  apply keeps_try_except; [|intro] : keeps.

(** ** The pipeline *)

Section Properties.

Context {W : Type} (rt : Runtime W).

Implicit Types (h : Heap W) (e : exn).

(** Attribute reads leave the heap alone. *)
Lemma keeps_read {X A} (obs : Heap W -> X) (f : Heap W -> A) :
  keeps obs (fun h => (inr (f h), h)).
Proof. intros h; reflexivity. Qed.

Lemma keeps_self_invoke {A} (c : Call) (op : Op W A) : keeps (@self W) (invoke c op).
Proof. intros h. unfold invoke. now destruct (op (world h)). Qed.

Lemma keeps_self_print (line : string) : keeps (@self W) (print line).
Proof. intros h; reflexivity. Qed.

Lemma generation_requests_snoc (log : list Call) (c : Call) :
  generation_requests (log ++ [c])
  = (generation_requests log ++ generation_request_of c)%list.
Proof.
  unfold generation_requests. rewrite flat_map_app. simpl. now rewrite app_nil_r.
Qed.

Lemma keeps_generation_invoke {A} (c : Call) (op : Op W A) :
  generation_request_of c = [] ->
  keeps (fun h => generation_requests (calls h)) (invoke c op).
Proof.
  intros Hc h. unfold invoke. destruct (op (world h)) as [r w']. simpl.
  now rewrite generation_requests_snoc, Hc, app_nil_r.
Qed.

#[local] Hint Resolve keeps_self_invoke keeps_self_print : keeps.
#[local] Hint Extern 1 (keeps _ self_config) => apply keeps_read : keeps.
#[local] Hint Extern 1 (keeps _ (self_mistral_client)) => apply keeps_read : keeps.
#[local] Hint Extern 1 (keeps _ (self_anthropic_client)) => apply keeps_read : keeps.
#[local] Hint Extern 1 (keeps _ (invoke _ _)) =>
  apply keeps_generation_invoke; reflexivity : keeps.

Lemma extract_keeps_self : keeps (@self W) (_extract_text_from_file rt).
Proof. unfold _extract_text_from_file, _extract_text_from_file_try. auto 20 with keeps. Qed.

Lemma analyze_keeps_self (transcript : string) :
  keeps (@self W) (_analyze_transcript transcript).
Proof. unfold _analyze_transcript, _analyze_transcript_try. auto 20 with keeps. Qed.

Lemma process_keeps_self : keeps (@self W) (process_transcript rt).
Proof.
  unfold process_transcript, process_transcript_try.
  pose proof extract_keeps_self. pose proof analyze_keeps_self.
  auto 20 with keeps.
Qed.

(** The extraction stage never calls the generation service. *)
Lemma extract_keeps_generation_requests :
  keeps (fun h => generation_requests (calls h)) (_extract_text_from_file rt).
Proof. unfold _extract_text_from_file, _extract_text_from_file_try. auto 20 with keeps. Qed.

(** [process_transcript] by the outcomes of its two stages. *)
Lemma process_transcript_cases h :
  process_transcript rt h =
  match _extract_text_from_file rt h with
  | (inl e, h1) => (inr ("Error processing transcript: " ++ str e), h1)
  | (inr transcript, h1) =>
      match _analyze_transcript transcript h1 with
      | (inl e, h2) => (inr ("Error processing transcript: " ++ str e), h2)
      | (inr insights, h2) => (inr insights, h2)
      end
  end.
Proof.
  unfold process_transcript, process_transcript_try, Py.try_except, Py.bind, Py.ret.
  destruct (_extract_text_from_file rt h) as [[e|t] h1]; [reflexivity|].
  now destruct (_analyze_transcript t h1) as [[e|r] h2].
Qed.

(** What the extraction stage lets out is always its own generic failure. *)
Lemma extract_raises_generic h e h1 :
  _extract_text_from_file rt h = (inl e, h1) ->
  exists e0,
    _extract_text_from_file_try rt h = (inl e0, h1) /\
    e = Exception ("OCR processing failed: " ++ str e0).
Proof.
  intros E.
  apply (try_raises_inv (_extract_text_from_file_try rt)
           (fun e0 => Exception ("OCR processing failed: " ++ str e0))) in E.
  exact E.
Qed.

(** And so is what the generation stage lets out. *)
Lemma analyze_raises_generic (transcript : string) h e h1 :
  _analyze_transcript transcript h = (inl e, h1) ->
  exists e0,
    _analyze_transcript_try
      (user_prompt (user_context (config (self h))) transcript) h = (inl e0, h1) /\
    e = Exception ("Analysis failed: " ++ str e0).
Proof.
  intros E.
  cbv beta iota delta [_analyze_transcript Py.bind self_config] in E.
  apply (try_raises_inv
           (_analyze_transcript_try
              (user_prompt (user_context (config (self h))) transcript))
           (fun e0 => Exception ("Analysis failed: " ++ str e0))) in E.
  exact E.
Qed.

(** The [try] block of the extraction stage follows the dialogue with the
    services: it raises what the first failing operation raised, or
    returns the joined pages. *)
Lemma extract_try_follows_dialogue h r w :
  ocr_dialogue rt h r w ->
  exists h1,
    _extract_text_from_file_try rt h
    = (match r with
       | inl e => inl e
       | inr ocr_response => inr (PyStr.join nl (map markdown (pages ocr_response)))
       end, h1)
    /\ world h1 = w.
Proof.
  intros D.
  unfold _extract_text_from_file_try, Py.bind, invoke, self_mistral_client,
    self_config, Py.ret.
  destruct D as [e w1 Ho | f w1 e w2 Ho Hu | f w1 up w2 e w3 Ho Hu Hs
                | f w1 up w2 su w3 r w4 Ho Hu Hs Hp];
    unfold upload_request, ocr_document in *; cbn [self world calls];
    rewrite Ho; cbn [self world calls];
    try (rewrite Hu; cbn [self world calls];
         try (rewrite Hs; cbn [self world calls]; try rewrite Hp)).
  1-3: eexists; split; reflexivity.
  destruct r as [e|resp]; eexists; split; reflexivity.
Qed.

(** Some dialogue always takes place. *)
Lemma ocr_dialogue_total h : exists r w, ocr_dialogue rt h r w.
Proof.
  destruct (open rt (file_path (config (self h))) "rb" (world h))
    as [[e|f] w1] eqn:Ho; [eexists _, _; eapply open_raises; eassumption|].
  destruct (files_upload (mistral_client (self h)) (upload_request h f) "ocr" w1)
    as [[e|up] w2] eqn:Hu; [eexists _, _; eapply upload_raises; eassumption|].
  destruct (files_get_signed_url (mistral_client (self h)) (file_id up) w2)
    as [[e|su] w3] eqn:Hs; [eexists _, _; eapply signed_url_raises; eassumption|].
  destruct (ocr_process (mistral_client (self h)) "mistral-ocr-latest"
              (ocr_document su) w3) as [r w4] eqn:Hp.
  eexists _, _; eapply ocr_answers; eassumption.
Qed.

(** The extraction stage raises nothing but that generic failure. *)
Lemma extract_raises_only_generic h e h1 :
  _extract_text_from_file rt h = (inl e, h1) ->
  exists e0 w,
    ocr_dialogue rt h (inl e0) w /\
    e = Exception ("OCR processing failed: " ++ str e0).
Proof.
  intros E. destruct (extract_raises_generic _ _ _ E) as (e0 & E0 & ->).
  destruct (ocr_dialogue_total h) as (r & w & D).
  destruct (extract_try_follows_dialogue _ _ _ D) as (h1' & E1 & _).
  rewrite E0 in E1. destruct r as [e1|resp]; [|discriminate].
  inversion E1; subst. now exists e1, w.
Qed.

(** The [try] block of the generation stage sends one request and joins the
    fragments of the answer. *)
Lemma analyze_try_follows_answer h transcript r w :
  generation_answers h transcript r w ->
  _analyze_transcript_try (user_prompt (user_context (config (self h))) transcript) h
  = (match r with
     | inl e => inl e
     | inr message => inr (PyStr.join "" (map text (content message)))
     end,
     {| self := self h; world := w;
        calls := (calls h ++ [CallMessagesCreate (generation_request h transcript)])%list |}).
Proof.
  unfold generation_answers, generation_request. intros G.
  unfold _analyze_transcript_try, Py.bind, invoke, self_anthropic_client,
    self_config, Py.ret.
  cbn [self world calls]. rewrite G. now destruct r.
Qed.

(** The generation stage sends exactly one request, whatever the answer. *)
Lemma analyze_sends_one_request (transcript : string) h :
  calls (snd (_analyze_transcript transcript h))
  = (calls h ++ [CallMessagesCreate (generation_request h transcript)])%list.
Proof.
  destruct (messages_create (anthropic_client (self h))
              (generation_request h transcript) (world h)) as [r w] eqn:G.
  pose proof (analyze_try_follows_answer h transcript r w G) as E.
  cbv beta iota delta [_analyze_transcript Py.bind self_config].
  unfold Py.try_except. rewrite E. now destruct r.
Qed.

Lemma process_log_after_extraction h transcript h1 :
  _extract_text_from_file rt h = (inr transcript, h1) ->
  calls (snd (process_transcript rt h))
  = (calls h1 ++ [CallMessagesCreate (generation_request h1 transcript)])%list.
Proof.
  intros He. rewrite process_transcript_cases, He.
  rewrite <- analyze_sends_one_request.
  now destruct (_analyze_transcript transcript h1) as [[e|r] h2].
Qed.

Lemma main_log argv w :
  exists line,
    calls (snd (main rt argv w))
    = (calls (snd (process_transcript rt (main_setup rt argv w))) ++ [CallPrint line])%list.
Proof.
  unfold main, Py.bind. rewrite process_transcript_cases.
  destruct (_extract_text_from_file rt (main_setup rt argv w)) as [[e|t] h1];
    [eexists; reflexivity|].
  destruct (_analyze_transcript t h1) as [[e|r] h2]; eexists; reflexivity.
Qed.

(** Joining with the empty separator is plain concatenation. *)
Lemma join_empty_sep (parts : list string) :
  PyStr.join "" parts = fold_right append "" parts.
Proof.
  induction parts as [|p [|q rest] IH]; [reflexivity| |].
  - simpl. induction p; simpl; congruence.
  - change (PyStr.join "" (p :: q :: rest)) with (p ++ "" ++ PyStr.join "" (q :: rest)).
    rewrite IH. reflexivity.
Qed.

(** *** The properties of the pipeline *)

(** C1. When both stages succeed, [process_transcript] is the generator
    applied to the extractor's output, on the heap the extractor left: it
    returns what [_analyze_transcript] returns on exactly the text that
    [_extract_text_from_file] returned, whatever the configuration.  The
    one request to the generation service comes after every call of the
    extraction and carries the extracted text as the template has it. *)
Theorem pipeline_is_composition h transcript h1 insights h2 :
  _extract_text_from_file rt h = (inr transcript, h1) ->
  _analyze_transcript transcript h1 = (inr insights, h2) ->
  process_transcript rt h = (inr insights, h2) /\
  calls h2 = (calls h1 ++ [CallMessagesCreate (generation_request h1 transcript)])%list /\
  user_texts (generation_request h1 transcript)
  = [user_prompt (user_context (config (self h))) transcript].
Proof.
  intros He Ha. split; [|split].
  - rewrite process_transcript_cases, He, Ha. reflexivity.
  - pose proof (analyze_sends_one_request transcript h1) as L.
    rewrite Ha in L. exact L.
  - pose proof (extract_keeps_self h) as S. rewrite He in S. simpl in S.
    unfold generation_request. rewrite S. reflexivity.
Qed.

(** C2. [process_transcript] never raises: on every heap it returns a
    string, which is either the generator's result after a successful
    extraction or ["Error processing transcript: " ++ str e] for the
    exception [e] that a stage raised. *)
Theorem process_transcript_never_raises h :
  exists (s : string) (h' : Heap W),
    process_transcript rt h = (inr s, h') /\
    ((exists transcript h1,
        _extract_text_from_file rt h = (inr transcript, h1) /\
        _analyze_transcript transcript h1 = (inr s, h'))
     \/
     (exists e,
        s = "Error processing transcript: " ++ str e /\
        (_extract_text_from_file rt h = (inl e, h') \/
         exists transcript h1,
           _extract_text_from_file rt h = (inr transcript, h1) /\
           _analyze_transcript transcript h1 = (inl e, h')))).
Proof.
  rewrite process_transcript_cases.
  destruct (_extract_text_from_file rt h) as [[e|t] h1] eqn:He.
  - eexists _, h1. split; [reflexivity|]. right. exists e. auto.
  - destruct (_analyze_transcript t h1) as [[e|r] h2] eqn:Ha.
    + eexists _, h2. split; [reflexivity|]. right. exists e.
      split; [reflexivity|]. right. now exists t, h1.
    + exists r, h2. split; [reflexivity|]. left. now exists t, h1.
Qed.

(** C3. When the extraction stage raises, [process_transcript] returns a
    string that contains "OCR processing failed" or "Error processing
    transcript", on the heap the extraction left: the generation service
    has been called no more often than before the run. *)
Theorem extraction_failure_short_circuits h e h1 :
  _extract_text_from_file rt h = (inl e, h1) ->
  exists s : string,
    process_transcript rt h = (inr s, h1) /\
    (PyStr.contains "OCR processing failed" s = true \/
     PyStr.contains "Error processing transcript" s = true) /\
    generation_calls (calls h1) = generation_calls (calls h).
Proof.
  intros He. exists ("Error processing transcript: " ++ str e).
  split; [now rewrite process_transcript_cases, He|]. split.
  - left. destruct (extract_raises_generic _ _ _ He) as (e0 & _ & ->).
    apply (contains_inside "OCR processing failed"
             "Error processing transcript: " (": " ++ str e0)).
  - pose proof (extract_keeps_generation_requests h) as K.
    rewrite He in K. unfold generation_calls. simpl in K. now rewrite K.
Qed.

(** C4. When the extraction stage returns and the generation stage raises,
    [process_transcript] returns a string that contains "Analysis failed"
    or "Error processing transcript". *)
Theorem generation_failure_is_reported h transcript h1 e h2 :
  _extract_text_from_file rt h = (inr transcript, h1) ->
  _analyze_transcript transcript h1 = (inl e, h2) ->
  exists s : string,
    process_transcript rt h = (inr s, h2) /\
    (PyStr.contains "Analysis failed" s = true \/
     PyStr.contains "Error processing transcript" s = true).
Proof.
  intros He Ha. exists ("Error processing transcript: " ++ str e).
  split; [now rewrite process_transcript_cases, He, Ha|].
  left. destruct (analyze_raises_generic _ _ _ _ Ha) as (e0 & _ & ->).
  apply (contains_inside "Analysis failed"
           "Error processing transcript: " (": " ++ str e0)).
Qed.

(** C5. When the OCR service returns a list of pages, the extraction stage
    returns their markdown joined by one newline, in the order returned;
    for the pages "A", "B", "C" that is "A\nB\nC".  When no page holds a
    newline, splitting the result at the newlines gives the pages back. *)
Theorem extract_joins_pages h ocr_response w :
  ocr_dialogue rt h (inr ocr_response) w ->
  fst (_extract_text_from_file rt h)
  = inr (PyStr.join nl (map markdown (pages ocr_response)))
  /\ (map markdown (pages ocr_response) = ["A"; "B"; "C"] ->
      fst (_extract_text_from_file rt h) = inr ("A" ++ nl ++ "B" ++ nl ++ "C"))
  /\ (pages ocr_response <> [] ->
      Forall (fun p => PyStr.has_char PyStr.newline (markdown p) = false)
             (pages ocr_response) ->
      exists s : string,
        fst (_extract_text_from_file rt h) = inr s /\
        PyStr.split PyStr.newline s = map markdown (pages ocr_response)).
Proof.
  intros D. destruct (extract_try_follows_dialogue _ _ _ D) as (h1 & E & _).
  assert (R : fst (_extract_text_from_file rt h)
              = inr (PyStr.join nl (map markdown (pages ocr_response)))).
  { unfold _extract_text_from_file. now rewrite (try_returns _ _ _ _ _ E). }
  split; [exact R|]. split.
  - intros P. rewrite R, P. reflexivity.
  - intros Hne Hall. eexists. split; [exact R|].
    apply split_join.
    + destruct (pages ocr_response); [congruence|discriminate].
    + apply Forall_map. exact Hall.
Qed.

(** C6. When the generation service returns a list of text fragments, the
    generation stage returns them concatenated in order with nothing in
    between; for "Hello " and "world" that is "Hello world". *)
Theorem analyze_concatenates_fragments h transcript message w :
  generation_answers h transcript (inr message) w ->
  fst (_analyze_transcript transcript h)
  = inr (fold_right append "" (map text (content message)))
  /\ (map text (content message) = ["Hello "; "world"] ->
      fst (_analyze_transcript transcript h) = inr "Hello world").
Proof.
  intros G. pose proof (analyze_try_follows_answer _ _ _ _ G) as E.
  assert (R : fst (_analyze_transcript transcript h)
              = inr (fold_right append "" (map text (content message)))).
  { cbv beta iota delta [_analyze_transcript Py.bind self_config].
    rewrite (try_returns _ _ _ _ _ E). simpl. now rewrite join_empty_sep. }
  split; [exact R|]. intros P. rewrite R, P. reflexivity.
Qed.

(** C7. Whatever the upload, the signed-URL retrieval or the OCR call (or
    opening the file) raises, the extraction stage raises in its place the
    generic [Exception] whose message is "OCR processing failed: " followed
    by [str] of the original: of the original error only its string is
    left, its class is not. *)
Theorem extraction_failure_is_collapsed h e0 w :
  ocr_dialogue rt h (inl e0) w ->
  exists e h1,
    _extract_text_from_file rt h = (inl e, h1) /\
    e = Exception ("OCR processing failed: " ++ str e0) /\
    exn_class e = "Exception" /\
    str e = "OCR processing failed: " ++ str e0.
Proof.
  intros D. destruct (extract_try_follows_dialogue _ _ _ D) as (h1 & E & _).
  exists (Exception ("OCR processing failed: " ++ str e0)), h1.
  split; [|repeat split].
  unfold _extract_text_from_file. now rewrite (try_raises _ _ _ _ _ E).
Qed.

(** C8. In a run of [main] whose extraction succeeds, the one prompt sent
    to the generation service is the template filled with the user context
    and the transcript.  Without [--user-context] the context is the
    default sentence, which the prompt then contains verbatim; with a
    value, the prompt is the template filled with that value alone: the
    default sentence occurs in it only if the value or the transcript
    contains it. *)
Theorem user_context_reaches_prompt argv w transcript h1 :
  _extract_text_from_file rt (main_setup rt argv w) = (inr transcript, h1) ->
  exists prompt : string,
    flat_map user_texts (generation_requests (calls (snd (main rt argv w)))) = [prompt] /\
    match argv_user_context argv with
    | None =>
        prompt = user_prompt default_user_context transcript /\
        PyStr.contains default_user_context prompt = true
    | Some v =>
        prompt = user_prompt v transcript /\
        PyStr.contains v prompt = true /\
        PyStr.contains default_user_context prompt
        = PyStr.contains default_user_context v
          || PyStr.contains default_user_context transcript
    end.
Proof.
  intros He.
  exists (user_prompt (args_user_context (parse_args argv)) transcript). split.
  - destruct (main_log argv w) as (line & ->).
    rewrite generation_requests_snoc, app_nil_r.
    rewrite (process_log_after_extraction _ _ _ He), generation_requests_snoc.
    pose proof (extract_keeps_generation_requests (main_setup rt argv w)) as K.
    pose proof (extract_keeps_self (main_setup rt argv w)) as S.
    rewrite He in K, S. simpl in K, S. rewrite K.
    unfold generation_request. rewrite S. reflexivity.
  - unfold parse_args. cbn [args_user_context].
    destruct (argv_user_context argv) as [v|].
    + split; [reflexivity|]. split; [|apply default_context_in_prompt].
      unfold user_prompt. apply contains_inside.
    + split; [reflexivity|]. unfold user_prompt. apply contains_inside.
Qed.

(** C9. The configuration is built once, from the command line, and no
    pipeline operation writes to it: every field of [self.config] after
    [process_transcript] (and after either stage, and after [main]) is the
    field's initial value. *)
Theorem config_is_never_mutated :
  (forall h,
     let c0 := config (self h) in
     let c1 := config (self (snd (process_transcript rt h))) in
     file_path c1 = file_path c0 /\ user_context c1 = user_context c0 /\
     model c1 = model c0 /\ max_tokens c1 = max_tokens c0 /\
     temperature c1 = temperature c0) /\
  (forall h, config (self (snd (_extract_text_from_file rt h))) = config (self h)) /\
  (forall transcript h,
     config (self (snd (_analyze_transcript transcript h))) = config (self h)) /\
  (forall argv w,
     config (self (snd (main rt argv w)))
     = Config_init (args_file_path (parse_args argv))
                   (args_user_context (parse_args argv))).
Proof.
  split; [|split; [|split]].
  - intros h c0 c1. subst c0 c1. rewrite process_keeps_self. repeat split.
  - intros h. now rewrite extract_keeps_self.
  - intros transcript h. now rewrite analyze_keeps_self.
  - intros argv w. unfold main.
    assert (K : keeps (@self W) (insights <- process_transcript rt ;; print insights)).
    { pose proof process_keeps_self. auto with keeps. }
    now rewrite K.
Qed.

(** C10. When the extraction fails with an original error of message [m],
    [process_transcript] returns exactly "Error processing transcript: OCR
    processing failed: m": the outer prefix and the inner prefix, nested. *)
Theorem extraction_failure_is_wrapped_twice h e0 w :
  ocr_dialogue rt h (inl e0) w ->
  fst (process_transcript rt h)
  = inr ("Error processing transcript: OCR processing failed: " ++ str e0)
  /\ PyStr.contains "OCR processing failed" 
       ("Error processing transcript: OCR processing failed: " ++ str e0) = true
  /\ PyStr.contains "Error processing transcript" 
       ("Error processing transcript: OCR processing failed: " ++ str e0) = true.
Proof.
  intros D. destruct (extract_try_follows_dialogue _ _ _ D) as (h1 & E & _).
  split; [|split].
  - rewrite process_transcript_cases. unfold _extract_text_from_file.
    rewrite (try_raises _ _ _ _ _ E). reflexivity.
  - apply (contains_inside "OCR processing failed"
             "Error processing transcript: " (": " ++ str e0)).
  - apply (contains_inside "Error processing transcript" ""
             (": OCR processing failed: " ++ str e0)).
Qed.

End Properties.

(** ** Concrete runs *)

Lemma pipeline_is_composition_witness :
  _extract_text_from_file (Stub.runtime Stub.all_ok) (Stub.heap Stub.all_ok)
    = (inr Stub.transcript_abc, Stub.after_extraction Stub.all_ok) /\
  _analyze_transcript Stub.transcript_abc (Stub.after_extraction Stub.all_ok)
    = (inr "Hello world", Stub.after_analysis Stub.all_ok) /\
  process_transcript (Stub.runtime Stub.all_ok) (Stub.heap Stub.all_ok)
    = (inr "Hello world", Stub.after_analysis Stub.all_ok).
Proof.
  split; [reflexivity|]. split; [reflexivity|].
  apply (pipeline_is_composition (Stub.runtime Stub.all_ok) (Stub.heap Stub.all_ok)
           Stub.transcript_abc (Stub.after_extraction Stub.all_ok)
           "Hello world" (Stub.after_analysis Stub.all_ok)); reflexivity.
Defined.

Lemma extraction_failure_short_circuits_witness :
  _extract_text_from_file (Stub.runtime Stub.upload_fails) (Stub.heap Stub.upload_fails)
    = (inl (Exception "OCR processing failed: timed out"),
       Stub.after_extraction Stub.upload_fails) /\
  exists s : string,
    process_transcript (Stub.runtime Stub.upload_fails) (Stub.heap Stub.upload_fails)
      = (inr s, Stub.after_extraction Stub.upload_fails) /\
    (PyStr.contains "OCR processing failed" s = true \/
     PyStr.contains "Error processing transcript" s = true) /\
    generation_calls (calls (Stub.after_extraction Stub.upload_fails))
      = generation_calls (calls (Stub.heap Stub.upload_fails)).
Proof.
  split; [reflexivity|].
  apply (extraction_failure_short_circuits (Stub.runtime Stub.upload_fails)
           (Stub.heap Stub.upload_fails)
           (Exception "OCR processing failed: timed out")).
  reflexivity.
Defined.

Lemma generation_failure_is_reported_witness :
  _extract_text_from_file (Stub.runtime Stub.create_fails) (Stub.heap Stub.create_fails)
    = (inr Stub.transcript_abc, Stub.after_extraction Stub.create_fails) /\
  _analyze_transcript Stub.transcript_abc (Stub.after_extraction Stub.create_fails)
    = (inl (Exception "Analysis failed: timed out"), Stub.after_analysis Stub.create_fails) /\
  exists s : string,
    process_transcript (Stub.runtime Stub.create_fails) (Stub.heap Stub.create_fails)
      = (inr s, Stub.after_analysis Stub.create_fails) /\
    (PyStr.contains "Analysis failed" s = true \/
     PyStr.contains "Error processing transcript" s = true).
Proof.
  split; [reflexivity|]. split; [reflexivity|].
  apply (generation_failure_is_reported (Stub.runtime Stub.create_fails)
           (Stub.heap Stub.create_fails) Stub.transcript_abc
           (Stub.after_extraction Stub.create_fails)
           (Exception "Analysis failed: timed out")); reflexivity.
Defined.

Lemma stub_dialogue_ok :
  ocr_dialogue (Stub.runtime Stub.all_ok) (Stub.heap Stub.all_ok) (inr Stub.abc_pages) 4.
Proof. eapply ocr_answers; reflexivity. Defined.

Lemma stub_dialogue_upload_fails :
  ocr_dialogue (Stub.runtime Stub.upload_fails) (Stub.heap Stub.upload_fails)
    (inl Stub.timeout_error) 2.
Proof. eapply upload_raises; reflexivity. Defined.

Lemma extract_joins_pages_witness :
  ocr_dialogue (Stub.runtime Stub.all_ok) (Stub.heap Stub.all_ok) (inr Stub.abc_pages) 4 /\
  map markdown (pages Stub.abc_pages) = ["A"; "B"; "C"] /\
  fst (_extract_text_from_file (Stub.runtime Stub.all_ok) (Stub.heap Stub.all_ok))
    = inr ("A" ++ nl ++ "B" ++ nl ++ "C").
Proof.
  split; [exact stub_dialogue_ok|]. split; [reflexivity|].
  apply (proj1 (proj2 (extract_joins_pages (Stub.runtime Stub.all_ok)
                         (Stub.heap Stub.all_ok) Stub.abc_pages 4 stub_dialogue_ok))).
  reflexivity.
Defined.

Lemma analyze_concatenates_fragments_witness :
  generation_answers (Stub.after_extraction Stub.all_ok) Stub.transcript_abc
    (inr Stub.hello_world) 5 /\
  map text (content Stub.hello_world) = ["Hello "; "world"] /\
  fst (_analyze_transcript Stub.transcript_abc (Stub.after_extraction Stub.all_ok))
    = inr "Hello world".
Proof.
  split; [reflexivity|]. split; [reflexivity|].
  apply (analyze_concatenates_fragments (Stub.after_extraction Stub.all_ok)
           Stub.transcript_abc Stub.hello_world 5); reflexivity.
Defined.

Lemma extraction_failure_is_collapsed_witness :
  ocr_dialogue (Stub.runtime Stub.upload_fails) (Stub.heap Stub.upload_fails)
    (inl Stub.timeout_error) 2 /\
  exists e h1,
    _extract_text_from_file (Stub.runtime Stub.upload_fails) (Stub.heap Stub.upload_fails)
      = (inl e, h1) /\
    e = Exception ("OCR processing failed: " ++ str Stub.timeout_error) /\
    exn_class e = "Exception" /\
    str e = "OCR processing failed: " ++ str Stub.timeout_error.
Proof.
  split; [exact stub_dialogue_upload_fails|].
  exact (extraction_failure_is_collapsed (Stub.runtime Stub.upload_fails)
           (Stub.heap Stub.upload_fails) Stub.timeout_error 2
           stub_dialogue_upload_fails).
Defined.

Lemma extraction_failure_is_wrapped_twice_witness :
  ocr_dialogue (Stub.runtime Stub.upload_fails) (Stub.heap Stub.upload_fails)
    (inl Stub.timeout_error) 2 /\
  fst (process_transcript (Stub.runtime Stub.upload_fails) (Stub.heap Stub.upload_fails))
    = inr "Error processing transcript: OCR processing failed: timed out".
Proof.
  split; [exact stub_dialogue_upload_fails|].
  exact (proj1 (extraction_failure_is_wrapped_twice (Stub.runtime Stub.upload_fails)
                  (Stub.heap Stub.upload_fails) Stub.timeout_error 2
                  stub_dialogue_upload_fails)).
Defined.

Lemma user_context_reaches_prompt_witness :
  _extract_text_from_file (Stub.runtime Stub.all_ok)
      (main_setup (Stub.runtime Stub.all_ok) Stub.argv_with_context 0)
    = (inr Stub.transcript_abc,
       snd (_extract_text_from_file (Stub.runtime Stub.all_ok)
              (main_setup (Stub.runtime Stub.all_ok) Stub.argv_with_context 0))) /\
  exists prompt : string,
    flat_map user_texts
      (generation_requests
         (calls (snd (main (Stub.runtime Stub.all_ok) Stub.argv_with_context 0))))
      = [prompt] /\
    prompt = user_prompt "I am a staff engineer." Stub.transcript_abc /\
    PyStr.contains "I am a staff engineer." prompt = true /\
    PyStr.contains default_user_context prompt = false.
Proof.
  split; [reflexivity|].
  destruct (user_context_reaches_prompt (Stub.runtime Stub.all_ok)
              Stub.argv_with_context 0 Stub.transcript_abc _ eq_refl)
    as (prompt & Hp & Hv & Hc & Hd).
  exists prompt. split; [exact Hp|]. split; [exact Hv|]. split; [exact Hc|].
  rewrite Hd. reflexivity.
Defined.

(** ** Whole runs

    What a run of the pipeline does to the heap, step by step: the calls it
    makes, in which order, and where it stops. *)

Lemma join_length (sep : string) (parts : list string) :
  String.length (PyStr.join sep parts)
  = list_sum (map String.length parts)
    + String.length sep * (List.length parts - 1).
Proof.
  assert (L : forall a b, String.length (a ++ b) = String.length a + String.length b).
  { intros a b. induction a as [|c a IH]; simpl; [reflexivity|]. now rewrite IH. }
  induction parts as [|p [|q rest] IH]; [simpl; lia | simpl; lia |].
  change (PyStr.join sep (p :: q :: rest)) with (p ++ sep ++ PyStr.join sep (q :: rest)).
  rewrite !L, IH. cbn [map list_sum List.length Nat.sub].
  rewrite !Nat.sub_0_r, Nat.mul_succ_r. unfold list_sum. cbn [fold_right]. lia.
Qed.

Lemma append_empty (a b : string) : a ++ b = "" -> a = "" /\ b = "".
Proof. destruct a; simpl; [auto|discriminate]. Qed.

Lemma concat_empty_iff (parts : list string) :
  fold_right append "" parts = "" <-> Forall (fun p => p = "") parts.
Proof.
  induction parts as [|p rest IH]; simpl.
  - split; auto.
  - split.
    + intros E. apply append_empty in E. destruct E as [-> E].
      constructor; [reflexivity|now apply IH].
    + intros F. inversion F; subst. simpl. now apply IH.
Qed.

Section Runs.

Context {W : Type} (rt : Runtime W).

Implicit Types (h : Heap W) (e : exn).

Ltac run_extract :=
  unfold _extract_text_from_file, Py.try_except, _extract_text_from_file_try,
    Py.bind, invoke, self_mistral_client, self_config, Py.ret, Py.raise,
    after, open_call, upload_call, signed_url_call, ocr_call,
    upload_request, ocr_document in *;
  cbn [self world calls].

Ltac step E := rewrite E; cbn [self world calls].

Ltac same_log := rewrite <- ?app_assoc; reflexivity.

Lemma extract_when_open_raises h e w1 :
  open rt (file_path (config (self h))) "rb" (world h) = (inl e, w1) ->
  _extract_text_from_file rt h
  = (inl (Exception ("OCR processing failed: " ++ str e)), after h w1 [open_call h]).
Proof. intros Ho. run_extract. step Ho. same_log. Qed.

Lemma extract_when_upload_raises h f w1 e w2 :
  open rt (file_path (config (self h))) "rb" (world h) = (inr f, w1) ->
  files_upload (mistral_client (self h)) (upload_request h f) "ocr" w1 = (inl e, w2) ->
  _extract_text_from_file rt h
  = (inl (Exception ("OCR processing failed: " ++ str e)),
     after h w2 [open_call h; upload_call h f]).
Proof. intros Ho Hu. run_extract. step Ho. step Hu. same_log. Qed.

Lemma extract_when_signed_url_raises h f w1 uploaded_file w2 e w3 :
  open rt (file_path (config (self h))) "rb" (world h) = (inr f, w1) ->
  files_upload (mistral_client (self h)) (upload_request h f) "ocr" w1
    = (inr uploaded_file, w2) ->
  files_get_signed_url (mistral_client (self h)) (file_id uploaded_file) w2
    = (inl e, w3) ->
  _extract_text_from_file rt h
  = (inl (Exception ("OCR processing failed: " ++ str e)),
     after h w3 [open_call h; upload_call h f; signed_url_call uploaded_file]).
Proof. intros Ho Hu Hs. run_extract. step Ho. step Hu. step Hs. same_log. Qed.

Lemma extract_when_ocr_answers h f w1 uploaded_file w2 signed_url w3 r w4 :
  open rt (file_path (config (self h))) "rb" (world h) = (inr f, w1) ->
  files_upload (mistral_client (self h)) (upload_request h f) "ocr" w1
    = (inr uploaded_file, w2) ->
  files_get_signed_url (mistral_client (self h)) (file_id uploaded_file) w2
    = (inr signed_url, w3) ->
  ocr_process (mistral_client (self h)) "mistral-ocr-latest"
    (ocr_document signed_url) w3 = (r, w4) ->
  _extract_text_from_file rt h
  = (match r with
     | inl e => inl (Exception ("OCR processing failed: " ++ str e))
     | inr ocr_response => inr (PyStr.join nl (map markdown (pages ocr_response)))
     end,
     after h w4 [open_call h; upload_call h f; signed_url_call uploaded_file;
                 ocr_call signed_url]).
Proof.
  intros Ho Hu Hs Hp. run_extract. step Ho. step Hu. step Hs. step Hp.
  destruct r; same_log.
Qed.

(** The generation stage on a heap: one request, whatever the answer. *)
Lemma analyze_when_service_answers (transcript : string) h r w :
  messages_create (anthropic_client (self h)) (generation_request h transcript)
    (world h) = (r, w) ->
  _analyze_transcript transcript h
  = (match r with
     | inl e => inl (Exception ("Analysis failed: " ++ str e))
     | inr message => inr (PyStr.join "" (map text (content message)))
     end,
     after h w [generation_call h transcript]).
Proof.
  intros G.
  unfold _analyze_transcript, Py.try_except, _analyze_transcript_try, Py.bind,
    invoke, self_anthropic_client, self_config, Py.ret, Py.raise, after,
    generation_call, generation_request in *.
  cbn [self world calls]. rewrite G. now destruct r.
Qed.

(** A run whose extraction succeeds, up to the answer of the generation
    service. *)
Lemma run_when_generation_answers h f w1 uploaded_file w2 signed_url w3
    ocr_response w4 r w5 :
  open rt (file_path (config (self h))) "rb" (world h) = (inr f, w1) ->
  files_upload (mistral_client (self h)) (upload_request h f) "ocr" w1
    = (inr uploaded_file, w2) ->
  files_get_signed_url (mistral_client (self h)) (file_id uploaded_file) w2
    = (inr signed_url, w3) ->
  ocr_process (mistral_client (self h)) "mistral-ocr-latest"
    (ocr_document signed_url) w3 = (inr ocr_response, w4) ->
  messages_create (anthropic_client (self h))
    (generation_request h (PyStr.join nl (map markdown (pages ocr_response)))) w4
    = (r, w5) ->
  process_transcript rt h
  = (inr (match r with
          | inl e => "Error processing transcript: Analysis failed: " ++ str e
          | inr message => PyStr.join "" (map text (content message))
          end),
     after h w5 [open_call h; upload_call h f; signed_url_call uploaded_file;
                 ocr_call signed_url;
                 generation_call h (PyStr.join nl (map markdown (pages ocr_response)))]).
Proof.
  intros Ho Hu Hs Hp G.
  rewrite process_transcript_cases,
    (extract_when_ocr_answers _ _ _ _ _ _ _ _ _ Ho Hu Hs Hp).
  rewrite (analyze_when_service_answers _ _ r w5) by exact G.
  unfold after, generation_call, generation_request. cbn [self world calls].
  destruct r; same_log.
Qed.

(** X1. A run in which every collaborator answers: the file is opened,
    uploaded under its final path component, the id of the upload buys the
    signed URL, the URL goes to the OCR model, the joined pages go into the
    one generation request, and its fragments, concatenated, are the
    result.  These five calls are made, in this order, each on the world
    the one before left. *)
Theorem successful_run h f w1 uploaded_file w2 signed_url w3 ocr_response w4
    message w5 :
  open rt (file_path (config (self h))) "rb" (world h) = (inr f, w1) ->
  files_upload (mistral_client (self h)) (upload_request h f) "ocr" w1
    = (inr uploaded_file, w2) ->
  files_get_signed_url (mistral_client (self h)) (file_id uploaded_file) w2
    = (inr signed_url, w3) ->
  ocr_process (mistral_client (self h)) "mistral-ocr-latest"
    (ocr_document signed_url) w3 = (inr ocr_response, w4) ->
  messages_create (anthropic_client (self h))
    (generation_request h (PyStr.join nl (map markdown (pages ocr_response)))) w4
    = (inr message, w5) ->
  process_transcript rt h
  = (inr (fold_right append "" (map text (content message))),
     after h w5 [open_call h; upload_call h f; signed_url_call uploaded_file;
                 ocr_call signed_url;
                 generation_call h (PyStr.join nl (map markdown (pages ocr_response)))]).
Proof.
  intros Ho Hu Hs Hp G.
  rewrite (run_when_generation_answers _ _ _ _ _ _ _ _ _ _ _ Ho Hu Hs Hp G).
  now rewrite join_empty_sep.
Qed.

Ltac stopped :=
  split; [reflexivity|]; split; [reflexivity|]; split; [lia|];
  split; [split; [lia | intros (? & ? & C); discriminate C] | eexists; reflexivity].

(** The calls of a run, by where it stops. *)
Lemma run_calls h :
  exists (made : list Call) (n : nat),
    calls (snd (process_transcript rt h)) = (calls h ++ made)%list /\
    map call_kind made = firstn n pipeline_order /\
    1 <= n <= 5 /\
    (n = 5 <-> exists transcript h1,
                 _extract_text_from_file rt h = (inr transcript, h1)) /\
    exists rest, made = open_call h :: rest.
Proof.
  destruct (open rt (file_path (config (self h))) "rb" (world h))
    as [[e|f] w1] eqn:Ho.
  { pose proof (extract_when_open_raises _ _ _ Ho) as E.
    exists [open_call h], 1. rewrite process_transcript_cases, E.
    stopped. }
  destruct (files_upload (mistral_client (self h)) (upload_request h f) "ocr" w1)
    as [[e|up] w2] eqn:Hu.
  { pose proof (extract_when_upload_raises _ _ _ _ _ Ho Hu) as E.
    exists [open_call h; upload_call h f], 2. rewrite process_transcript_cases, E.
    stopped. }
  destruct (files_get_signed_url (mistral_client (self h)) (file_id up) w2)
    as [[e|su] w3] eqn:Hs.
  { pose proof (extract_when_signed_url_raises _ _ _ _ _ _ _ Ho Hu Hs) as E.
    exists [open_call h; upload_call h f; signed_url_call up], 3.
    rewrite process_transcript_cases, E.
    stopped. }
  destruct (ocr_process (mistral_client (self h)) "mistral-ocr-latest"
              (ocr_document su) w3) as [[e|resp] w4] eqn:Hp.
  { pose proof (extract_when_ocr_answers _ _ _ _ _ _ _ _ _ Ho Hu Hs Hp) as E.
    exists [open_call h; upload_call h f; signed_url_call up; ocr_call su], 4.
    rewrite process_transcript_cases, E.
    stopped. }
  destruct (messages_create (anthropic_client (self h))
              (generation_request h (PyStr.join nl (map markdown (pages resp)))) w4)
    as [r w5] eqn:G.
  pose proof (extract_when_ocr_answers _ _ _ _ _ _ _ _ _ Ho Hu Hs Hp) as E.
  rewrite (run_when_generation_answers _ _ _ _ _ _ _ _ _ _ _ Ho Hu Hs Hp G).
  eexists _, 5.
  split; [reflexivity|]. split; [reflexivity|]. split; [lia|].
  split; [split; [intros _; rewrite E; eauto | reflexivity] | eexists; reflexivity].
Qed.


(** X2. In every run [process_transcript] reaches the collaborators in the
    one order open, upload, signed URL, OCR, generation, each at most once,
    and stops at the first that raises: the calls of a run are an initial
    part of that order, never empty, and complete exactly when the
    extraction returned. *)
Theorem calls_follow_pipeline_order h :
  exists (made : list Call) (n : nat),
    calls (snd (process_transcript rt h)) = (calls h ++ made)%list /\
    map call_kind made = firstn n pipeline_order /\
    1 <= n <= 5 /\
    (n = 5 <-> exists transcript h1,
                 _extract_text_from_file rt h = (inr transcript, h1)).
Proof.
  destruct (run_calls h) as (made & n & L & K & B & C & _).
  exists made, n. auto.
Qed.

(** X3. When the file cannot be opened, nothing leaves the machine: the run
    ends after the one call to [open], the world is as [open] left it, and
    the result is the twice-wrapped message of what [open] raised. *)
Theorem unreadable_file_sends_nothing h e w1 :
  open rt (file_path (config (self h))) "rb" (world h) = (inl e, w1) ->
  process_transcript rt h
  = (inr ("Error processing transcript: OCR processing failed: " ++ str e),
     after h w1 [open_call h]).
Proof.
  intros Ho. now rewrite process_transcript_cases, (extract_when_open_raises _ _ _ Ho).
Qed.

(** X4. When the upload raises, no signed URL is asked for, no OCR and no
    generation is requested: the run ends after [open] and the upload. *)
Theorem upload_failure_ends_run h f w1 e w2 :
  open rt (file_path (config (self h))) "rb" (world h) = (inr f, w1) ->
  files_upload (mistral_client (self h)) (upload_request h f) "ocr" w1 = (inl e, w2) ->
  process_transcript rt h
  = (inr ("Error processing transcript: OCR processing failed: " ++ str e),
     after h w2 [open_call h; upload_call h f]).
Proof.
  intros Ho Hu.
  now rewrite process_transcript_cases, (extract_when_upload_raises _ _ _ _ _ Ho Hu).
Qed.

(** X5. When the signed URL cannot be had, the run ends there: the file
    stays uploaded, and neither OCR nor generation is requested. *)
Theorem signed_url_failure_ends_run h f w1 uploaded_file w2 e w3 :
  open rt (file_path (config (self h))) "rb" (world h) = (inr f, w1) ->
  files_upload (mistral_client (self h)) (upload_request h f) "ocr" w1
    = (inr uploaded_file, w2) ->
  files_get_signed_url (mistral_client (self h)) (file_id uploaded_file) w2
    = (inl e, w3) ->
  process_transcript rt h
  = (inr ("Error processing transcript: OCR processing failed: " ++ str e),
     after h w3 [open_call h; upload_call h f; signed_url_call uploaded_file]).
Proof.
  intros Ho Hu Hs.
  now rewrite process_transcript_cases,
    (extract_when_signed_url_raises _ _ _ _ _ _ _ Ho Hu Hs).
Qed.

(** X6. When the OCR call raises, the run ends after the four calls of the
    extraction, with the twice-wrapped message of what the OCR raised. *)
Theorem ocr_failure_ends_run h f w1 uploaded_file w2 signed_url w3 e w4 :
  open rt (file_path (config (self h))) "rb" (world h) = (inr f, w1) ->
  files_upload (mistral_client (self h)) (upload_request h f) "ocr" w1
    = (inr uploaded_file, w2) ->
  files_get_signed_url (mistral_client (self h)) (file_id uploaded_file) w2
    = (inr signed_url, w3) ->
  ocr_process (mistral_client (self h)) "mistral-ocr-latest"
    (ocr_document signed_url) w3 = (inl e, w4) ->
  process_transcript rt h
  = (inr ("Error processing transcript: OCR processing failed: " ++ str e),
     after h w4 [open_call h; upload_call h f; signed_url_call uploaded_file;
                 ocr_call signed_url]).
Proof.
  intros Ho Hu Hs Hp.
  now rewrite process_transcript_cases,
    (extract_when_ocr_answers _ _ _ _ _ _ _ _ _ Ho Hu Hs Hp).
Qed.

(** X7. When the extraction succeeds and the generation service raises an
    error of message [m], the result is exactly "Error processing
    transcript: Analysis failed: m", after one generation request and no
    second try. *)
Theorem generation_failure_is_wrapped_twice h f w1 uploaded_file w2 signed_url w3
    ocr_response w4 e w5 :
  open rt (file_path (config (self h))) "rb" (world h) = (inr f, w1) ->
  files_upload (mistral_client (self h)) (upload_request h f) "ocr" w1
    = (inr uploaded_file, w2) ->
  files_get_signed_url (mistral_client (self h)) (file_id uploaded_file) w2
    = (inr signed_url, w3) ->
  ocr_process (mistral_client (self h)) "mistral-ocr-latest"
    (ocr_document signed_url) w3 = (inr ocr_response, w4) ->
  messages_create (anthropic_client (self h))
    (generation_request h (PyStr.join nl (map markdown (pages ocr_response)))) w4
    = (inl e, w5) ->
  process_transcript rt h
  = (inr ("Error processing transcript: Analysis failed: " ++ str e),
     after h w5 [open_call h; upload_call h f; signed_url_call uploaded_file;
                 ocr_call signed_url;
                 generation_call h (PyStr.join nl (map markdown (pages ocr_response)))]).
Proof.
  intros Ho Hu Hs Hp G.
  exact (run_when_generation_answers _ _ _ _ _ _ _ _ _ _ _ Ho Hu Hs Hp G).
Qed.

(** X8. The generation stage lets out one kind of failure only: it raises
    exactly when the generation service raises, and what it raises is the
    generic [Exception] with message "Analysis failed: " followed by [str]
    of the original, after the one request. *)
Theorem analysis_failure_is_collapsed (transcript : string) h e h1 :
  _analyze_transcript transcript h = (inl e, h1) <->
  exists e0 w,
    generation_answers h transcript (inl e0) w /\
    e = Exception ("Analysis failed: " ++ str e0) /\
    h1 = after h w [generation_call h transcript].
Proof.
  split.
  - intros E.
    destruct (messages_create (anthropic_client (self h))
                (generation_request h transcript) (world h)) as [r w] eqn:G.
    rewrite (analyze_when_service_answers _ _ _ _ G) in E.
    destruct r as [e0|m]; [|discriminate].
    inversion E; subst. exists e0, w. repeat split. exact G.
  - intros (e0 & w & G & -> & ->). exact (analyze_when_service_answers _ _ _ _ G).
Qed.

(** Calls that print nothing leave the printed lines as they are. *)
Lemma keeps_printed_invoke {A} (c : Call) (op : Op W A) :
  printed_of c = [] ->
  keeps (fun h => printed (calls h)) (invoke c op).
Proof.
  intros Hc h. unfold invoke. destruct (op (world h)) as [r w']. simpl.
  unfold printed. rewrite flat_map_app. simpl. now rewrite Hc, !app_nil_r.
Qed.

Lemma process_prints_nothing :
  keeps (fun h => printed (calls h)) (process_transcript rt).
Proof.
  unfold process_transcript, process_transcript_try, _extract_text_from_file,
    _extract_text_from_file_try, _analyze_transcript, _analyze_transcript_try.
  repeat first
    [ apply keeps_ret | apply keeps_raise
    | apply keeps_bind; [|intro] | apply keeps_try_except; [|intro]
    | apply keeps_printed_invoke; reflexivity
    | intros ?; reflexivity ].
Qed.


(** X10. Nothing on the command line reaches the model, the token budget,
    the temperature, the system prompt or the shape of the request: every
    request a run of [main] sends names the model of [Config], 4000 tokens,
    temperature 1, the fixed system prompt and one user message of one text
    part. *)
Theorem main_request_settings_fixed argv w :
  Forall (fun params =>
            create_model params = "claude-3-7-sonnet-20250219" /\
            create_max_tokens params = 4000%Z /\
            create_temperature params = 1%Q /\
            create_system params = system_prompt /\
            exists prompt,
              create_messages params
              = [ {| role := "user";
                     message_content :=
                       [ {| part_type := "text"; part_text := prompt |} ] |} ])
         (generation_requests (calls (snd (main rt argv w)))).
Proof.
  destruct (main_log rt argv w) as (line & ->).
  rewrite generation_requests_snoc, app_nil_r.
  destruct (_extract_text_from_file rt (main_setup rt argv w)) as [[e|t] h1] eqn:He.
  - pose proof (extract_keeps_generation_requests rt (main_setup rt argv w)) as K.
    rewrite process_transcript_cases, He. rewrite He in K. simpl in *.
    rewrite K. constructor.
  - pose proof (extract_keeps_generation_requests rt (main_setup rt argv w)) as K.
    pose proof (extract_keeps_self rt (main_setup rt argv w)) as S.
    rewrite (process_log_after_extraction rt _ _ _ He), generation_requests_snoc.
    rewrite He in K, S. simpl in K, S. rewrite K. simpl.
    constructor; [|constructor].
    unfold generation_request. rewrite S. simpl. repeat split. eauto.
Qed.


(** X12. An OCR answer without pages is no error: the extraction returns
    the empty string, and the generation service is still asked, with the
    template around an empty transcript. *)
Theorem empty_pages_still_analyzed h ocr_response w :
  ocr_dialogue rt h (inr ocr_response) w ->
  pages ocr_response = [] ->
  fst (_extract_text_from_file rt h) = inr "" /\
  generation_requests (calls (snd (process_transcript rt h)))
  = (generation_requests (calls h) ++ [generation_request h ""])%list.
Proof.
  intros D P. destruct (extract_try_follows_dialogue rt _ _ _ D) as (h1 & E & _).
  rewrite P in E. simpl in E.
  assert (He : _extract_text_from_file rt h = (inr "", h1)).
  { unfold _extract_text_from_file. now rewrite (try_returns _ _ _ _ _ E). }
  split; [now rewrite He|].
  pose proof (extract_keeps_generation_requests rt h) as K.
  pose proof (extract_keeps_self rt h) as S.
  rewrite He in K, S. simpl in K, S.
  rewrite (process_log_after_extraction rt _ _ _ He), generation_requests_snoc, K.
  unfold generation_request. now rewrite S.
Qed.

(** X13. Whatever fragments the generation service returns, the stage
    returns: the insights are empty exactly when every fragment is (as when
    there is none), and that is no error either. *)
Theorem insights_empty_iff_fragments_empty (transcript : string) h message w :
  generation_answers h transcript (inr message) w ->
  exists insights : string,
    fst (_analyze_transcript transcript h) = inr insights /\
    (insights = "" <-> Forall (fun b => text b = "") (content message)).
Proof.
  intros G. rewrite (analyze_when_service_answers _ _ _ _ G).
  eexists. split; [reflexivity|].
  rewrite join_empty_sep, concat_empty_iff, Forall_map. reflexivity.
Qed.

(** X14. The returned string does not tell a failure from a success: for
    every run, failed or not, there is a run in which both stages succeed
    and [process_transcript] returns the same string. *)
Theorem result_does_not_tell_failure h :
  exists (rt' : Runtime nat) (h' : Heap nat) (transcript insights : string)
         (h1 h2 : Heap nat),
    _extract_text_from_file rt' h' = (inr transcript, h1) /\
    _analyze_transcript transcript h1 = (inr insights, h2) /\
    fst (process_transcript rt' h') = fst (process_transcript rt h).
Proof.
  assert (R : exists line, fst (process_transcript rt h) = inr line).
  { rewrite process_transcript_cases.
    destruct (_extract_text_from_file rt h) as [[e|t] h1]; [eexists; reflexivity|].
    destruct (_analyze_transcript t h1) as [[e|r] h2]; eexists; reflexivity. }
  destruct R as (line & ->).
  exists (Stub.runtime (Stub.saying line)), (Stub.heap (Stub.saying line)).
  exists Stub.transcript_abc, line, (Stub.after_extraction (Stub.saying line)),
    (snd (_analyze_transcript Stub.transcript_abc
            (Stub.after_extraction (Stub.saying line)))).
  split; [reflexivity|]. split; reflexivity.
Qed.

(** X15. The extracted text is as long as its pages and one newline
    between each two of them: nothing goes before the first page or after
    the last. *)
Theorem extracted_text_length h ocr_response w :
  ocr_dialogue rt h (inr ocr_response) w ->
  exists transcript : string,
    fst (_extract_text_from_file rt h) = inr transcript /\
    String.length transcript
    = list_sum (map (fun p => String.length (markdown p)) (pages ocr_response))
      + (List.length (pages ocr_response) - 1).
Proof.
  intros D. destruct (extract_try_follows_dialogue rt _ _ _ D) as (h1 & E & _).
  eexists. split.
  - unfold _extract_text_from_file. now rewrite (try_returns _ _ _ _ _ E).
  - rewrite join_length, map_map, length_map. simpl. lia.
Qed.

(** The extraction reads the file path, the OCR client and the world, and
    nothing else of the heap. *)
Lemma extract_reads_file_path_only h h' :
  file_path (config (self h)) = file_path (config (self h')) ->
  mistral_client (self h) = mistral_client (self h') ->
  world h = world h' ->
  fst (_extract_text_from_file rt h) = fst (_extract_text_from_file rt h') /\
  world (snd (_extract_text_from_file rt h)) = world (snd (_extract_text_from_file rt h')) /\
  (calls h = calls h' ->
   calls (snd (_extract_text_from_file rt h)) = calls (snd (_extract_text_from_file rt h'))).
Proof.
  intros Hf Hm Hw.
  assert (Hr : forall f, upload_request h' f = upload_request h f)
    by (intros f; unfold upload_request; now rewrite Hf).
  assert (Hc : open_call h' = open_call h) by (unfold open_call; now rewrite Hf).
  assert (Hu' : forall f, upload_call h' f = upload_call h f)
    by (intros f; unfold upload_call; now rewrite Hr).
  destruct (open rt (file_path (config (self h))) "rb" (world h))
    as [[e|f] w1] eqn:Ho.
  { rewrite (extract_when_open_raises h _ _ Ho).
    rewrite Hf, Hw in Ho. rewrite (extract_when_open_raises h' _ _ Ho).
    unfold after. cbn [fst snd world calls]. rewrite Hc.
    repeat split. now intros ->. }
  destruct (files_upload (mistral_client (self h)) (upload_request h f) "ocr" w1)
    as [[e|up] w2] eqn:Hu.
  { rewrite (extract_when_upload_raises h _ _ _ _ Ho Hu).
    rewrite Hf, Hw in Ho. rewrite Hm, <- Hr in Hu.
    rewrite (extract_when_upload_raises h' _ _ _ _ Ho Hu).
    unfold after. cbn [fst snd world calls]. rewrite Hc, Hu'.
    repeat split. now intros ->. }
  destruct (files_get_signed_url (mistral_client (self h)) (file_id up) w2)
    as [[e|su] w3] eqn:Hs.
  { rewrite (extract_when_signed_url_raises h _ _ _ _ _ _ Ho Hu Hs).
    rewrite Hf, Hw in Ho. rewrite Hm, <- Hr in Hu. rewrite Hm in Hs.
    rewrite (extract_when_signed_url_raises h' _ _ _ _ _ _ Ho Hu Hs).
    unfold after. cbn [fst snd world calls]. rewrite Hc, Hu'.
    repeat split. now intros ->. }
  destruct (ocr_process (mistral_client (self h)) "mistral-ocr-latest"
              (ocr_document su) w3) as [r w4] eqn:Hp.
  rewrite (extract_when_ocr_answers h _ _ _ _ _ _ _ _ Ho Hu Hs Hp).
  rewrite Hf, Hw in Ho. rewrite Hm, <- Hr in Hu. rewrite Hm in Hs, Hp.
  rewrite (extract_when_ocr_answers h' _ _ _ _ _ _ _ _ Ho Hu Hs Hp).
  unfold after. cbn [fst snd world calls]. rewrite Hc, Hu'.
  repeat split. now intros ->.
Qed.

(** X16. The [--user-context] flag has no part in the extraction: two runs
    of [main] on the same file in the same world make the same calls to
    open, upload and OCR, and extract the same text, whatever the flag. *)
Theorem user_context_does_not_reach_extraction (file : string)
    (context context' : option string) w :
  fst (_extract_text_from_file rt
         (main_setup rt {| argv_file_path := file; argv_user_context := context |} w))
  = fst (_extract_text_from_file rt
           (main_setup rt {| argv_file_path := file; argv_user_context := context' |} w))
  /\
  calls (snd (_extract_text_from_file rt
         (main_setup rt {| argv_file_path := file; argv_user_context := context |} w)))
  = calls (snd (_extract_text_from_file rt
           (main_setup rt {| argv_file_path := file; argv_user_context := context' |} w)))
  /\
  world (snd (_extract_text_from_file rt
         (main_setup rt {| argv_file_path := file; argv_user_context := context |} w)))
  = world (snd (_extract_text_from_file rt
           (main_setup rt {| argv_file_path := file; argv_user_context := context' |} w))).
Proof.
  destruct (extract_reads_file_path_only
              (main_setup rt {| argv_file_path := file; argv_user_context := context |} w)
              (main_setup rt {| argv_file_path := file; argv_user_context := context' |} w)
              eq_refl eq_refl eq_refl) as (R & Hw & Hc).
  split; [exact R|]. split; [exact (Hc eq_refl)|exact Hw].
Qed.

End Runs.

(** ** Whole runs of the stub *)

Lemma successful_run_witness :
  fst (process_transcript (Stub.runtime Stub.all_ok) (Stub.heap Stub.all_ok))
    = inr "Hello world" /\
  map call_kind (calls (snd (process_transcript (Stub.runtime Stub.all_ok)
                               (Stub.heap Stub.all_ok))))
    = pipeline_order /\
  world (snd (process_transcript (Stub.runtime Stub.all_ok) (Stub.heap Stub.all_ok))) = 5.
Proof.
  rewrite (successful_run (Stub.runtime Stub.all_ok) (Stub.heap Stub.all_ok)
             Stub.talk_file 1 Stub.file_1 2 Stub.url_1 3 Stub.abc_pages 4
             Stub.hello_world 5 eq_refl eq_refl eq_refl eq_refl eq_refl).
  repeat split.
Defined.

Lemma unreadable_file_sends_nothing_witness :
  process_transcript (Stub.runtime Stub.open_fails) (Stub.heap Stub.open_fails)
  = (inr "Error processing transcript: OCR processing failed: No such file or directory",
     after (Stub.heap Stub.open_fails) 1 [CallOpen "talks/talk.pdf" "rb"]).
Proof.
  exact (unreadable_file_sends_nothing (Stub.runtime Stub.open_fails)
           (Stub.heap Stub.open_fails) Stub.not_found_error 1 eq_refl).
Defined.

Lemma upload_failure_ends_run_witness :
  fst (process_transcript (Stub.runtime Stub.upload_fails) (Stub.heap Stub.upload_fails))
    = inr "Error processing transcript: OCR processing failed: timed out" /\
  map call_kind (calls (snd (process_transcript (Stub.runtime Stub.upload_fails)
                               (Stub.heap Stub.upload_fails))))
    = [KOpen; KFilesUpload].
Proof.
  rewrite (upload_failure_ends_run (Stub.runtime Stub.upload_fails)
             (Stub.heap Stub.upload_fails) Stub.talk_file 1 Stub.timeout_error 2
             eq_refl eq_refl).
  split; reflexivity.
Defined.

Lemma signed_url_failure_ends_run_witness :
  fst (process_transcript (Stub.runtime Stub.signed_url_fails)
         (Stub.heap Stub.signed_url_fails))
    = inr "Error processing transcript: OCR processing failed: timed out" /\
  map call_kind (calls (snd (process_transcript (Stub.runtime Stub.signed_url_fails)
                               (Stub.heap Stub.signed_url_fails))))
    = [KOpen; KFilesUpload; KFilesGetSignedUrl].
Proof.
  rewrite (signed_url_failure_ends_run (Stub.runtime Stub.signed_url_fails)
             (Stub.heap Stub.signed_url_fails) Stub.talk_file 1 Stub.file_1 2
             Stub.timeout_error 3 eq_refl eq_refl eq_refl).
  split; reflexivity.
Defined.

Lemma ocr_failure_ends_run_witness :
  fst (process_transcript (Stub.runtime Stub.ocr_fails) (Stub.heap Stub.ocr_fails))
    = inr "Error processing transcript: OCR processing failed: timed out" /\
  map call_kind (calls (snd (process_transcript (Stub.runtime Stub.ocr_fails)
                               (Stub.heap Stub.ocr_fails))))
    = [KOpen; KFilesUpload; KFilesGetSignedUrl; KOcrProcess].
Proof.
  rewrite (ocr_failure_ends_run (Stub.runtime Stub.ocr_fails)
             (Stub.heap Stub.ocr_fails) Stub.talk_file 1 Stub.file_1 2 Stub.url_1 3
             Stub.timeout_error 4 eq_refl eq_refl eq_refl eq_refl).
  split; reflexivity.
Defined.

Lemma generation_failure_is_wrapped_twice_witness :
  fst (process_transcript (Stub.runtime Stub.create_fails) (Stub.heap Stub.create_fails))
    = inr "Error processing transcript: Analysis failed: timed out" /\
  generation_calls (calls (snd (process_transcript (Stub.runtime Stub.create_fails)
                                  (Stub.heap Stub.create_fails)))) = 1.
Proof.
  rewrite (generation_failure_is_wrapped_twice (Stub.runtime Stub.create_fails)
             (Stub.heap Stub.create_fails) Stub.talk_file 1 Stub.file_1 2 Stub.url_1 3
             Stub.abc_pages 4 Stub.timeout_error 5
             eq_refl eq_refl eq_refl eq_refl eq_refl).
  split; reflexivity.
Defined.

Lemma analysis_failure_is_collapsed_witness :
  _analyze_transcript Stub.transcript_abc (Stub.after_extraction Stub.create_fails)
    = (inl (Exception "Analysis failed: timed out"), Stub.after_analysis Stub.create_fails) /\
  exists e0 w,
    generation_answers (Stub.after_extraction Stub.create_fails) Stub.transcript_abc
      (inl e0) w /\
    Exception "Analysis failed: timed out" = Exception ("Analysis failed: " ++ str e0) /\
    Stub.after_analysis Stub.create_fails
    = after (Stub.after_extraction Stub.create_fails) w
        [generation_call (Stub.after_extraction Stub.create_fails) Stub.transcript_abc].
Proof.
  split; [reflexivity|].
  apply (proj1 (analysis_failure_is_collapsed Stub.transcript_abc
                  (Stub.after_extraction Stub.create_fails)
                  (Exception "Analysis failed: timed out")
                  (Stub.after_analysis Stub.create_fails))).
  reflexivity.
Defined.

Lemma stub_dialogue_no_pages :
  ocr_dialogue (Stub.runtime Stub.no_pages) (Stub.heap Stub.no_pages)
    (inr {| pages := [] |}) 4.
Proof. eapply ocr_answers; reflexivity. Defined.

Lemma empty_pages_still_analyzed_witness :
  ocr_dialogue (Stub.runtime Stub.no_pages) (Stub.heap Stub.no_pages)
    (inr {| pages := [] |}) 4 /\
  fst (_extract_text_from_file (Stub.runtime Stub.no_pages) (Stub.heap Stub.no_pages))
    = inr "" /\
  generation_requests
    (calls (snd (process_transcript (Stub.runtime Stub.no_pages) (Stub.heap Stub.no_pages))))
  = [generation_request (Stub.heap Stub.no_pages) ""].
Proof.
  split; [exact stub_dialogue_no_pages|].
  exact (empty_pages_still_analyzed (Stub.runtime Stub.no_pages)
           (Stub.heap Stub.no_pages) {| pages := [] |} 4
           stub_dialogue_no_pages eq_refl).
Defined.

Lemma insights_empty_iff_fragments_empty_witness :
  generation_answers (Stub.after_extraction Stub.all_ok) Stub.transcript_abc
    (inr Stub.hello_world) 5 /\
  exists insights : string,
    fst (_analyze_transcript Stub.transcript_abc (Stub.after_extraction Stub.all_ok))
      = inr insights /\
    (insights = "" <-> Forall (fun b => text b = "") (content Stub.hello_world)).
Proof.
  split; [reflexivity|].
  apply (insights_empty_iff_fragments_empty Stub.transcript_abc
           (Stub.after_extraction Stub.all_ok) Stub.hello_world 5).
  reflexivity.
Defined.

Lemma extracted_text_length_witness :
  exists transcript : string,
    fst (_extract_text_from_file (Stub.runtime Stub.all_ok) (Stub.heap Stub.all_ok))
      = inr transcript /\
    String.length transcript = 3 + 2.
Proof.
  exact (extracted_text_length (Stub.runtime Stub.all_ok) (Stub.heap Stub.all_ok)
           Stub.abc_pages 4 stub_dialogue_ok).
Defined.
